(** * highlander: a singleton-per-namespace admission webhook

    Shallow embedding of [webhook.go] (package [highlander]) and a
    verification of its admission logic.

    The package talks to three collaborators that live outside the
    repository: the API client ([client.Client]), the logger
    ([logr.Logger]) and the manager with its webhook server.  A call on
    one of them is an _operation_ ([Op]); a method of the package is a
    finite tree of such operations ([Prog]), whose leaves are the Go
    return values.  Which operations a method issues, with which
    arguments and in which order, is read off the tree; what they do to
    the cluster is given by an interpreter ([exec]) over an arbitrary
    implementation of the collaborators ([Backend]). *)

From Stdlib Require Import String Ascii List ZArith Bool Lia.
Import ListNotations.

Local Open Scope string_scope.
Local Open Scope Z_scope.

(** ** Go's [error] values and package [errors] *)

(** [ErrThereCanBeOnlyOne] is the package-level value created once by
    [errors.New]; Go compares such values by identity, so another error
    with the same text is a different value.  It therefore gets a
    constructor of its own.  [errorString] stands for every other leaf
    error, [wrapError] for an error that wraps another one (as
    [fmt.Errorf] with the verb %w builds, [Unwrap] returning [err]). *)
Inductive error : Type :=
| ErrThereCanBeOnlyOne
| errorString (s : string)
| wrapError (msg : string) (err : error).

(** The method [Error()]. *)
Definition Error (e : error) : string :=
  match e with
  | ErrThereCanBeOnlyOne =>
      "there can be only one instance of this object per namespace"
  | errorString s => s
  | wrapError msg _ => msg
  end.

Module errors.

(** Comparison of two error values ([==] on the interface values).  The
    sentinel is equal to itself only; the identity of the other values
    is taken to be their content. *)
Fixpoint same (a b : error) : bool :=
  match a, b with
  | ErrThereCanBeOnlyOne, ErrThereCanBeOnlyOne => true
  | errorString s, errorString t => String.eqb s t
  | wrapError m e, wrapError n f => String.eqb m n && same e f
  | _, _ => false
  end.

Definition Unwrap (e : error) : option error :=
  match e with
  | wrapError _ inner => Some inner
  | _ => None
  end.

(** [errors.Is]: walks the [Unwrap] chain of [err] looking for [target]. *)
Fixpoint Is (err target : error) : bool :=
  same err target ||
  match err with
  | wrapError _ inner => Is inner target
  | _ => false
  end.

End errors.

(** ** Package [strings] (ASCII strings) *)

Module strings.

Definition isUpper (c : ascii) : bool :=
  let n := nat_of_ascii c in (Nat.leb 65 n && Nat.leb n 90)%bool.

(** One byte of [strings.ToLower]: ['A'..'Z'] gain ['a' - 'A']. *)
Definition toLowerByte (c : ascii) : ascii :=
  if isUpper c then ascii_of_nat (nat_of_ascii c + 32) else c.

(** [strings.ToLower] on its ASCII path (every byte below 0x80), which
    is where group, version and kind names live. *)
Fixpoint ToLower (s : string) : string :=
  match s with
  | EmptyString => EmptyString
  | String c rest => String (toLowerByte c) (ToLower rest)
  end.

(** [replaceFrom old new skip s]: the scan of [strings.ReplaceAll] for a
    non-empty [old]; [skip] counts the bytes of a match still to drop. *)
Fixpoint replaceFrom (old new : string) (skip : nat) (s : string) : string :=
  match s with
  | EmptyString => EmptyString
  | String c rest =>
      match skip with
      | S n => replaceFrom old new n rest
      | O =>
          if String.prefix old s
          then new ++ replaceFrom old new (Nat.pred (String.length old)) rest
          else String c (replaceFrom old new O rest)
      end
  end.

(** [strings.ReplaceAll s old new], for the non-empty [old] of the
    package's only call. *)
Definition ReplaceAll (s old new : string) : string :=
  replaceFrom old new O s.

End strings.

(** ** Package [net/http] *)

Module http.
Definition StatusBadRequest : Z := 400.

(** The class of a status code: 4xx is a client error, 5xx a server
    error. *)
Definition isClientError (code : Z) : bool := (400 <=? code) && (code <? 500).
Definition isServerError (code : Z) : bool := (500 <=? code) && (code <? 600).
End http.

(** ** Package [context] *)

(** [Background] is never cancelled.  [WithCancel parent done] is a
    derived context; [done] holds the cause once it has been cancelled
    or has timed out. *)
Inductive Context : Type :=
| Background
| WithCancel (parent : Context) (done : option error).

Module context.
Definition Canceled : error := errorString "context canceled".

(** [ctx.Err()]. *)
Fixpoint Err (ctx : Context) : option error :=
  match ctx with
  | Background => None
  | WithCancel parent done =>
      match Err parent with
      | Some e => Some e
      | None => done
      end
  end.
End context.

(** ** API machinery: identities and objects *)

Module schema.
Record GroupVersionKind : Type := mkGVK {
  Group : string;
  Version : string;
  Kind : string
}.

Definition eqb (a b : GroupVersionKind) : bool :=
  String.eqb (Group a) (Group b) && String.eqb (Version a) (Version b)
  && String.eqb (Kind a) (Kind b).
End schema.

(** A timestamp ([metav1.Time]) in seconds. *)
Definition Time : Type := Z.

Module unstructured.
(** One stored object as the list call returns it: its identity, its
    place, and the deletion timestamp the control plane sets when the
    object is scheduled for removal ([None] is Go's [nil]). *)
Record Unstructured : Type := mkUnstructured {
  GroupVersionKind : schema.GroupVersionKind;
  GetNamespace : string;
  GetName : string;
  GetDeletionTimestamp : option Time
}.

Record UnstructuredList : Type := mkList {
  ListGroupVersionKind : schema.GroupVersionKind;
  Items : list Unstructured
}.

(** The zero value [UnstructuredList{}]. *)
Definition empty : UnstructuredList :=
  {| ListGroupVersionKind := schema.mkGVK "" "" ""; Items := [] |}.

Definition SetGroupVersionKind (ul : UnstructuredList)
    (gvk : schema.GroupVersionKind) : UnstructuredList :=
  {| ListGroupVersionKind := gvk; Items := Items ul |}.
End unstructured.

Module client.
(** [client.Object], by the one accessor the package uses, and the Go
    type of the value, which is what the type scheme looks at. *)
Record Object : Type := mkObject {
  GoType : string;
  GetNamespace : string;
  GetName : string
}.

Record ListOptions : Type := mkListOptions {
  Namespace : string
}.

(** A [client.Client] value (an interface; [nil] is [None] where a
    field may hold it). *)
Inductive Client : Type := Conn (id : nat).
End client.

Module logr.
Inductive Logger : Type := Named (name : string).
End logr.

Module runtime.
(** The type scheme, by the lookup [apiutil.GVKForObject] performs on
    it: Go returns the pair (identity, error). *)
Record Scheme : Type := mkScheme {
  ObjectKind : client.Object -> schema.GroupVersionKind * option error
}.
End runtime.

Module apiutil.
Definition GVKForObject (obj : client.Object) (scheme : runtime.Scheme)
    : schema.GroupVersionKind * option error :=
  runtime.ObjectKind scheme obj.
End apiutil.

Module webhook.
(** The manager's webhook server ([*webhook.Server]). *)
Inductive Server : Type := Listening (port : Z).
End webhook.

Module manager.
Record Manager : Type := mkManager {
  GetClient : client.Client;
  GetLogger : logr.Logger;
  GetScheme : runtime.Scheme;
  GetWebhookServer : webhook.Server
}.
End manager.

(** ** Package [admission] *)

Module admissionv1.
(** [type Operation string] with its four constants. *)
Definition Operation : Type := string.
Definition Create : Operation := "CREATE".
Definition Update : Operation := "UPDATE".
Definition Delete : Operation := "DELETE".
Definition Connect : Operation := "CONNECT".
End admissionv1.

Module admission.
Record Request : Type := mkRequest {
  Operation : admissionv1.Operation;
  Kind : schema.GroupVersionKind;
  Namespace : string;
  Name : string
}.

(** The three ways the package builds a response: [admission.Allowed],
    [admission.Denied] and [admission.Errored]. *)
Inductive Response : Type :=
| Allowed (reason : string)
| Denied (reason : string)
| Errored (code : Z) (err : error).

(** [admission.Webhook], generic in the handler it serves. *)
Record Webhook (H : Type) : Type := mkWebhook {
  Handler : H;
  log : option logr.Logger;
  scheme : option runtime.Scheme
}.
Arguments mkWebhook {H}.
Arguments Handler {H}.
Arguments log {H}.
Arguments scheme {H}.

Definition InjectLogger {H} (wh : Webhook H) (l : option logr.Logger)
    : Webhook H :=
  {| Handler := Handler wh; log := l; scheme := scheme wh |}.

Definition InjectScheme {H} (wh : Webhook H) (s : runtime.Scheme)
    : Webhook H :=
  {| Handler := Handler wh; log := log wh; scheme := Some s |}.
End admission.

(** ** Package [highlander]: the gate *)

(** [type Webhook struct].  [log], [mgr] and [cli] hold interface values
    that stay [nil] ([None]) until [SetupWithManager] fills them. *)
Record Webhook : Type := mkWebhook {
  object : client.Object;
  log : option logr.Logger;
  gvk : schema.GroupVersionKind;
  mgr : option manager.Manager;
  cli : option client.Client
}.

Definition NewFor (apiType : client.Object) : Webhook :=
  {| object := apiType;
     log := None;
     gvk := schema.mkGVK "" "" "";
     mgr := None;
     cli := None |}.

(** Assignments to the fields of [w] (the methods have pointer receivers). *)
Definition set_mgr (w : Webhook) (m : manager.Manager) : Webhook :=
  {| object := object w; log := log w; gvk := gvk w; mgr := Some m; cli := cli w |}.
Definition set_cli (w : Webhook) (c : client.Client) : Webhook :=
  {| object := object w; log := log w; gvk := gvk w; mgr := mgr w; cli := Some c |}.
Definition set_log (w : Webhook) (l : logr.Logger) : Webhook :=
  {| object := object w; log := Some l; gvk := gvk w; mgr := mgr w; cli := cli w |}.
Definition set_gvk (w : Webhook) (g : schema.GroupVersionKind) : Webhook :=
  {| object := object w; log := log w; gvk := g; mgr := mgr w; cli := cli w |}.

(** ** Calls on the collaborators *)

(** The operations of the collaborators, indexed by what Go hands back.
    [ClientList] is [Client.List(ctx, list, opts)]: it fills the list it
    is given and returns an error.  The writing methods of the client
    interface are part of the signature although the package never
    calls them: that it does not is a theorem, not a limit of the
    model. *)
Inductive Op : Type -> Type :=
| ClientList (c : client.Client) (ctx : Context)
    (list : unstructured.UnstructuredList) (opts : client.ListOptions)
    : Op (unstructured.UnstructuredList * option error)
| ClientCreate (c : client.Client) (ctx : Context)
    (obj : unstructured.Unstructured) : Op (option error)
| ClientUpdate (c : client.Client) (ctx : Context)
    (obj : unstructured.Unstructured) : Op (option error)
| ClientDelete (c : client.Client) (ctx : Context)
    (obj : unstructured.Unstructured) : Op (option error)
| LoggerError (l : logr.Logger) (err : error) (msg : string)
    (keysAndValues : list (string * string)) : Op unit
| ServerRegister (srv : webhook.Server) (path : string)
    (hook : admission.Webhook Webhook) : Op unit.

(** A method body: it returns, calls a collaborator and goes on with the
    answer, or panics (a call through a [nil] interface). *)
Inductive Prog (A : Type) : Type :=
| Ret (a : A)
| Vis {X : Type} (op : Op X) (k : X -> Prog A)
| Panic (v : string).
Arguments Ret {A}.
Arguments Vis {A X}.
Arguments Panic {A}.

Fixpoint bind {A B : Type} (p : Prog A) (f : A -> Prog B) : Prog B :=
  match p with
  | Ret a => f a
  | Vis op k => Vis op (fun x => bind (k x) f)
  | Panic v => Panic v
  end.

Definition call {X : Type} (op : Op X) : Prog X := Vis op Ret.

Notation "x <- p ;; q" := (bind p (fun x => q))
  (at level 61, p at next level, right associativity).
Notation "p ;;; q" := (bind p (fun _ => q))
  (at level 61, right associativity).

Definition nilDereference : string :=
  "invalid memory address or nil pointer dereference".
Definition indexOutOfRange : string := "index out of range".

Definition strNeq (a b : string) : bool := negb (String.eqb a b).

(** [func (w *Webhook) ValidateCreate() error]; [None] is [nil]. *)
Definition ValidateCreate (w : Webhook) : Prog (option error) :=
  (* Check if any other instances of this gvk exist in the same namespace *)
  let ul := unstructured.empty in
  let ul := unstructured.SetGroupVersionKind ul (gvk w) in
  match cli w with
  | None => Panic nilDereference
  | Some c =>
      r <- call (ClientList c Background ul
                   {| client.Namespace := client.GetNamespace (object w) |}) ;;
      let ul := fst r in
      let err := snd r in
      match err with
      | Some err =>
          match log w with
          | None => Panic nilDereference
          | Some l =>
              call (LoggerError l err "Failed to list objects in namespace"
                      [("namespace", client.GetNamespace (object w))]) ;;;
              Ret (Some err)
          end
      | None =>
          if (0 <? Z.of_nat (length (unstructured.Items ul)))
          then
            match nth_error (unstructured.Items ul) 0 with
            | None => Panic indexOutOfRange
            | Some item =>
                match unstructured.GetDeletionTimestamp item with
                | Some _ =>
                    (* Old object is being deleted, allow the new one to be created *)
                    Ret None
                | None => Ret (Some ErrThereCanBeOnlyOne)
                end
            end
          else Ret None
      end
  end.

(** [func (w *Webhook) Handle(ctx, req) admission.Response]. *)
Definition Handle (w : Webhook) (ctx : Context) (req : admission.Request)
    : Prog admission.Response :=
  if strNeq (admission.Operation req) admissionv1.Create
  then Ret (admission.Allowed "")
  else
    let gvk' := admission.Kind req in
    if strNeq (schema.Group gvk') (schema.Group (gvk w)) ||
       strNeq (schema.Version gvk') (schema.Version (gvk w)) ||
       strNeq (schema.Kind gvk') (schema.Kind (gvk w))
    then Ret (admission.Allowed "")
    else
      err <- ValidateCreate w ;;
      match err with
      | Some err =>
          if errors.Is err ErrThereCanBeOnlyOne
          then Ret (admission.Denied (Error err))
          else Ret (admission.Errored http.StatusBadRequest err)
      | None => Ret (admission.Allowed "")
      end.

(** [func generateValidatePath(gvk schema.GroupVersionKind) string]. *)
Definition generateValidatePath (gvk : schema.GroupVersionKind) : string :=
  ("/highlander-" ++ strings.ReplaceAll (schema.Group gvk) "." "-" ++ "-" ++
   schema.Version gvk ++ "-" ++ strings.ToLower (schema.Kind gvk))%string.

(** [func (w *Webhook) SetupWithManager(mgr manager.Manager) error]: the
    receiver after the call, and the returned error. *)
Definition SetupWithManager (w : Webhook) (mgr : manager.Manager)
    : Prog (Webhook * option error) :=
  let w := set_mgr w mgr in
  let w := set_cli w (manager.GetClient mgr) in
  let w := set_log w (manager.GetLogger mgr) in
  let r := apiutil.GVKForObject (object w) (manager.GetScheme mgr) in
  let w := set_gvk w (fst r) in
  let err := snd r in
  match err with
  | Some err => Ret (w, Some err)
  | None =>
      let path := generateValidatePath (gvk w) in
      let wh := admission.mkWebhook w None None in
      let wh := admission.InjectLogger wh (log w) in
      let wh := admission.InjectScheme wh (manager.GetScheme mgr) in
      call (ServerRegister (manager.GetWebhookServer mgr) path wh) ;;;
      Ret (w, None)
  end.

(** ** What the calls do: the cluster and its implementations *)

Record LogEntry : Type := mkLogEntry {
  entryLogger : logr.Logger;
  entryErr : error;
  entryMsg : string;
  entryKeysAndValues : list (string * string)
}.

Definition Routes : Type := list (string * admission.Webhook Webhook).

(** The state outside the gate: the stored objects, what has been
    logged, and the routes of the webhook server. *)
Record World : Type := mkWorld {
  objects : list unstructured.Unstructured;
  logged : list LogEntry;
  webhooks : Routes
}.

(** An implementation of the collaborators.  The reading method gets the
    stored objects and returns the filled list and an error; a writing
    method returns the new stored objects as well; [register] returns
    [None] when the server panics. *)
Record Backend : Type := mkBackend {
  list_objects : client.Client -> Context -> unstructured.UnstructuredList ->
                 client.ListOptions -> list unstructured.Unstructured ->
                 unstructured.UnstructuredList * option error;
  create_object : client.Client -> Context -> unstructured.Unstructured ->
                  list unstructured.Unstructured ->
                  list unstructured.Unstructured * option error;
  update_object : client.Client -> Context -> unstructured.Unstructured ->
                  list unstructured.Unstructured ->
                  list unstructured.Unstructured * option error;
  delete_object : client.Client -> Context -> unstructured.Unstructured ->
                  list unstructured.Unstructured ->
                  list unstructured.Unstructured * option error;
  register : webhook.Server -> string -> admission.Webhook Webhook ->
             Routes -> option Routes
}.

Inductive Outcome (A : Type) : Type :=
| Returned (a : A)
| Panicked (v : string).
Arguments Returned {A}.
Arguments Panicked {A}.

Definition set_objects (s : World) (objs : list unstructured.Unstructured) : World :=
  {| objects := objs; logged := logged s; webhooks := webhooks s |}.

(** One call, carried out by [B] in the world [s]. *)
Definition perform (B : Backend) {X : Type} (op : Op X) (s : World)
    : Outcome X * World :=
  match op in Op T return Outcome T * World with
  | ClientList c ctx ul opts =>
      (Returned (list_objects B c ctx ul opts (objects s)), s)
  | ClientCreate c ctx obj =>
      let r := create_object B c ctx obj (objects s) in
      (Returned (snd r), set_objects s (fst r))
  | ClientUpdate c ctx obj =>
      let r := update_object B c ctx obj (objects s) in
      (Returned (snd r), set_objects s (fst r))
  | ClientDelete c ctx obj =>
      let r := delete_object B c ctx obj (objects s) in
      (Returned (snd r), set_objects s (fst r))
  | LoggerError l err msg kvs =>
      (Returned tt,
       {| objects := objects s;
          logged := (logged s ++ [mkLogEntry l err msg kvs])%list;
          webhooks := webhooks s |})
  | ServerRegister srv path hook =>
      match register B srv path hook (webhooks s) with
      | Some routes =>
          (Returned tt,
           {| objects := objects s; logged := logged s; webhooks := routes |})
      | None => (Panicked "can't register duplicate path", s)
      end
  end.

(** Running a method body to its end. *)
Fixpoint exec (B : Backend) {A : Type} (p : Prog A) (s : World)
    : Outcome A * World :=
  match p with
  | Ret a => (Returned a, s)
  | Panic v => (Panicked v, s)
  | Vis op k =>
      match perform B op s with
      | (Returned x, s') => exec B (k x) s'
      | (Panicked v, s') => (Panicked v, s')
      end
  end.

(** The calls that only read the stored objects. *)
Definition writes {X : Type} (op : Op X) : bool :=
  match op with
  | ClientCreate _ _ _ | ClientUpdate _ _ _ | ClientDelete _ _ _ => true
  | ClientList _ _ _ _ | LoggerError _ _ _ _ | ServerRegister _ _ _ => false
  end.

Definition registers {X : Type} (op : Op X) : bool :=
  match op with
  | ServerRegister _ _ _ => true
  | _ => false
  end.

(** [never bad p]: no call of [p], whatever the answers to the earlier
    ones, is one that [bad] flags. *)
Fixpoint never (bad : forall X, Op X -> bool) {A : Type} (p : Prog A) : Prop :=
  match p with
  | Ret _ => True
  | Panic _ => True
  | Vis op k => bad _ op = false /\ forall x, never bad (k x)
  end.

(** The number of [ClientList] calls along the path the answers [B]
    gives in [s] select. *)
Definition isList {X : Type} (op : Op X) : bool :=
  match op with
  | ClientList _ _ _ _ => true
  | _ => false
  end.

Fixpoint reads (B : Backend) {A : Type} (p : Prog A) (s : World) : nat :=
  match p with
  | Ret _ => O
  | Panic _ => O
  | Vis op k =>
      ((if isList op then 1 else 0) +
       match perform B op s with
       | (Returned x, s') => reads B (k x) s'
       | (Panicked _, _) => 0
       end)%nat
  end.

(** ** A reference implementation of the collaborators *)

Definition inNamespace (ns : string) (o : unstructured.Unstructured) : bool :=
  String.eqb ns "" || String.eqb ns (unstructured.GetNamespace o).

Definition sameObject (a b : unstructured.Unstructured) : bool :=
  schema.eqb (unstructured.GroupVersionKind a) (unstructured.GroupVersionKind b)
  && String.eqb (unstructured.GetNamespace a) (unstructured.GetNamespace b)
  && String.eqb (unstructured.GetName a) (unstructured.GetName b).

(** An API server that answers a list call with the stored objects of
    the asked kind in the asked namespace (the empty namespace asks for
    all of them), in stored order.  A call fails with [outage] while the
    server is down, and with the context's error once the context it was
    given is done. *)
Definition guarded {T : Type} (outage : option error) (ctx : Context)
    (run : T * option error) (keep : T) : T * option error :=
  match outage with
  | Some e => (keep, Some e)
  | None =>
      match context.Err ctx with
      | Some e => (keep, Some e)
      | None => run
      end
  end.

Definition apiserver (outage : option error) : Backend :=
  {| list_objects := fun _ ctx ul opts objs =>
       guarded outage ctx
         ({| unstructured.ListGroupVersionKind :=
               unstructured.ListGroupVersionKind ul;
             unstructured.Items :=
               filter (fun o =>
                   schema.eqb (unstructured.GroupVersionKind o)
                     (unstructured.ListGroupVersionKind ul)
                   && inNamespace (client.Namespace opts) o) objs |}, None)
         ul;
     create_object := fun _ ctx obj objs =>
       guarded outage ctx
         (if existsb (sameObject obj) objs
          then (objs, Some (errorString "already exists"))
          else ((objs ++ [obj])%list, None))
         objs;
     update_object := fun _ ctx obj objs =>
       guarded outage ctx
         (map (fun o => if sameObject obj o then obj else o) objs, None)
         objs;
     delete_object := fun _ ctx obj objs =>
       guarded outage ctx
         (filter (fun o => negb (sameObject obj o)) objs, None)
         objs;
     register := fun _ path hook routes =>
       if existsb (fun r => String.eqb (fst r) path) routes
       then None
       else Some ((routes ++ [(path, hook)])%list) |}.

(** ** A concrete cluster, used by the examples below

    The scenario of the specification: the protected type is
    [(apps.example.io, v1, Widget)] and the namespace is [team-a]. *)

Module Scenario.
Definition widgetGVK : schema.GroupVersionKind :=
  schema.mkGVK "apps.example.io" "v1" "Widget".

Definition scheme : runtime.Scheme :=
  runtime.mkScheme (fun obj =>
    if String.eqb (client.GoType obj) "*v1.Widget"
    then (widgetGVK, None)
    else (schema.mkGVK "" "" "",
          Some (errorString "no kind is registered for the type")))%string.

Definition theManager : manager.Manager :=
  manager.mkManager (client.Conn 0) (logr.Named "highlander") scheme
    (webhook.Listening 9443).

(** A protected type given as an object of namespace [ns]. *)
Definition widgetIn (ns : string) : client.Object :=
  client.mkObject "*v1.Widget" ns "".

(** The gate for [widgetIn ns], after a successful setup. *)
Definition gateIn (ns : string) : Webhook :=
  {| object := widgetIn ns;
     log := Some (logr.Named "highlander");
     gvk := widgetGVK;
     mgr := Some theManager;
     cli := Some (client.Conn 0) |}.

Definition widget (ns name : string) (deletion : option Time)
    : unstructured.Unstructured :=
  unstructured.mkUnstructured widgetGVK ns name deletion.

Definition createWidget (ns name : string) : admission.Request :=
  admission.mkRequest admissionv1.Create widgetGVK ns name.

Definition cluster (objs : list unstructured.Unstructured) : World :=
  {| objects := objs; logged := []; webhooks := [] |}.
End Scenario.

(** ** The vocabulary of the statements *)

(** A create request for the identity the gate is bound to. *)
Definition matches (w : Webhook) (req : admission.Request) : Prop :=
  admission.Operation req = admissionv1.Create /\
  schema.Group (admission.Kind req) = schema.Group (gvk w) /\
  schema.Version (admission.Kind req) = schema.Version (gvk w) /\
  schema.Kind (admission.Kind req) = schema.Kind (gvk w).

(** What [Handle] makes of the error [ValidateCreate] returned. *)
Definition respond (err : option error) : Prog admission.Response :=
  match err with
  | Some err =>
      if errors.Is err ErrThereCanBeOnlyOne
      then Ret (admission.Denied (Error err))
      else Ret (admission.Errored http.StatusBadRequest err)
  | None => Ret (admission.Allowed "")
  end.

(** The list call of [ValidateCreate]: an empty list stamped with the
    gate's identity, and the namespace of the gate's own [object]. *)
Definition theList (w : Webhook) : unstructured.UnstructuredList :=
  unstructured.SetGroupVersionKind unstructured.empty (gvk w).

Definition theOptions (w : Webhook) : client.ListOptions :=
  {| client.Namespace := client.GetNamespace (object w) |}.

(** The text of the sentinel. *)
Definition onlyOne : string :=
  "there can be only one instance of this object per namespace".

(** An instance that is not marked for deletion. *)
Definition live (item : unstructured.Unstructured) : bool :=
  match unstructured.GetDeletionTimestamp item with
  | Some _ => false
  | None => true
  end.

(** Is [ctx] the value of [context.Background()]? *)
Definition isBackground (ctx : Context) : bool :=
  match ctx with
  | Background => true
  | WithCancel _ _ => false
  end.

(** A list call made under a context other than [Background]. *)
Definition listsUnderCallerContext {X : Type} (op : Op X) : bool :=
  match op with
  | ClientList _ ctx _ _ => negb (isBackground ctx)
  | _ => false
  end.

(** A list call for a namespace other than [ns]. *)
Definition listsOutside (ns : string) {X : Type} (op : Op X) : bool :=
  match op with
  | ClientList _ _ _ opts => strNeq (client.Namespace opts) ns
  | _ => false
  end.

(** The receiver as [SetupWithManager] leaves it. *)
Definition afterSetup (w : Webhook) (mgr : manager.Manager) : Webhook :=
  {| object := object w;
     log := Some (manager.GetLogger mgr);
     gvk := fst (apiutil.GVKForObject (object w) (manager.GetScheme mgr));
     mgr := Some mgr;
     cli := Some (manager.GetClient mgr) |}.

(** The bytes of [s], each sent through [f]. *)
Fixpoint mapBytes (f : ascii -> ascii) (s : string) : string :=
  match s with
  | EmptyString => EmptyString
  | String c rest => String (f c) (mapBytes f rest)
  end.

(** Do all bytes of [s] satisfy [p]? *)
Fixpoint allBytes (p : ascii -> bool) (s : string) : bool :=
  match s with
  | EmptyString => true
  | String c rest => p c && allBytes p rest
  end.

Definition dotToDash (c : ascii) : ascii :=
  if Ascii.eqb c "." then "-"%char else c.

Definition notDot (c : ascii) : bool := negb (Ascii.eqb c ".").



(** * Verification *)

(** ** Running programs *)

Lemma exec_bind (B : Backend) {A C : Type} (p : Prog A) (f : A -> Prog C)
    (s : World) :
  exec B (bind p f) s =
  match exec B p s with
  | (Returned a, s') => exec B (f a) s'
  | (Panicked v, s') => (Panicked v, s')
  end.
Proof.
  revert s. induction p as [a | X op k IH | v]; intros s; simpl.
  - reflexivity.
  - destruct (perform B op s) as [[x | v] s']; [apply IH | reflexivity].
  - reflexivity.
Qed.

(** A call that is no write leaves the stored objects alone. *)
Lemma perform_keeps_objects (B : Backend) {X : Type} (op : Op X) (s : World) :
  writes op = false -> objects (snd (perform B op s)) = objects s.
Proof.
  destruct op; simpl; try discriminate; intros _; try reflexivity.
  destruct (register B srv path hook (webhooks s)); reflexivity.
Qed.

Lemma perform_keeps_webhooks (B : Backend) {X : Type} (op : Op X) (s : World) :
  registers op = false -> webhooks (snd (perform B op s)) = webhooks s.
Proof. destruct op; simpl; try discriminate; intros _; reflexivity. Qed.

(** A body none of whose calls writes ends with the stored objects it
    started with, whatever the collaborators answer. *)
Lemma never_writes_keeps_objects (B : Backend) {A : Type} (p : Prog A) :
  never (@writes) p -> forall s, objects (snd (exec B p s)) = objects s.
Proof.
  induction p as [a | X op k IH | v]; simpl; intros Hp s; try reflexivity.
  destruct Hp as [Hop Hk].
  pose proof (perform_keeps_objects B op s Hop) as Hs.
  destruct (perform B op s) as [[x | v] s']; simpl in *.
  - rewrite IH by apply Hk. exact Hs.
  - exact Hs.
Qed.

Lemma never_registers_keeps_webhooks (B : Backend) {A : Type} (p : Prog A) :
  never (@registers) p -> forall s, webhooks (snd (exec B p s)) = webhooks s.
Proof.
  induction p as [a | X op k IH | v]; simpl; intros Hp s; try reflexivity.
  destruct Hp as [Hop Hk].
  pose proof (perform_keeps_webhooks B op s Hop) as Hs.
  destruct (perform B op s) as [[x | v] s']; simpl in *.
  - rewrite IH by apply Hk. exact Hs.
  - exact Hs.
Qed.

Lemma never_bind (bad : forall X, Op X -> bool) {A C : Type} (p : Prog A)
    (f : A -> Prog C) :
  never bad p -> (forall a, never bad (f a)) -> never bad (bind p f).
Proof.
  induction p as [a | X op k IH | v]; simpl; intros Hp Hf.
  - apply Hf.
  - destruct Hp as [Hop Hk]. split; [exact Hop | intros x; apply IH; auto].
  - exact I.
Qed.

(** ** Requests the gate is bound to *)

Lemma strNeq_false (a b : string) : strNeq a b = false <-> a = b.
Proof. unfold strNeq. rewrite negb_false_iff. apply String.eqb_eq. Qed.

Lemma strNeq_true (a b : string) : strNeq a b = true <-> a <> b.
Proof. unfold strNeq. rewrite negb_true_iff. apply String.eqb_neq. Qed.

Lemma Handle_matches (w : Webhook) (ctx : Context) (req : admission.Request) :
  matches w req -> Handle w ctx req = bind (ValidateCreate w) respond.
Proof.
  intros (Hop & Hg & Hv & Hk). unfold Handle.
  apply strNeq_false in Hop, Hg, Hv, Hk.
  rewrite Hop, Hg, Hv, Hk. reflexivity.
Qed.

Lemma Handle_other (w : Webhook) (ctx : Context) (req : admission.Request) :
  admission.Operation req <> admissionv1.Create \/
  schema.Group (admission.Kind req) <> schema.Group (gvk w) \/
  schema.Version (admission.Kind req) <> schema.Version (gvk w) \/
  schema.Kind (admission.Kind req) <> schema.Kind (gvk w) ->
  Handle w ctx req = Ret (admission.Allowed "").
Proof.
  intros H. unfold Handle.
  destruct (strNeq (admission.Operation req) admissionv1.Create) eqn:Hop;
    [reflexivity |].
  destruct H as [H | [H | [H | H]]]; apply strNeq_true in H.
  - congruence.
  - rewrite H. reflexivity.
  - rewrite H, orb_true_r. reflexivity.
  - rewrite H, !orb_true_r. reflexivity.
Qed.

(** [ValidateCreate] once the list call has succeeded with [ul]. *)
Lemma ValidateCreate_listed (B : Backend) (w : Webhook) (c : client.Client)
    (s : World) (ul : unstructured.UnstructuredList) :
  cli w = Some c ->
  list_objects B c Background (theList w) (theOptions w) (objects s) = (ul, None) ->
  exec B (ValidateCreate w) s =
  (Returned
     match unstructured.Items ul with
     | [] => None
     | item :: _ =>
         match unstructured.GetDeletionTimestamp item with
         | Some _ => None
         | None => Some ErrThereCanBeOnlyOne
         end
     end, s).
Proof.
  intros Hcli Hlist. unfold ValidateCreate. rewrite Hcli. simpl.
  unfold theList, theOptions in Hlist. rewrite Hlist. simpl.
  destruct (unstructured.Items ul) as [| item rest]; simpl; [reflexivity |].
  destruct (unstructured.GetDeletionTimestamp item); reflexivity.
Qed.

(** [ValidateCreate] once the list call has failed with [e]. *)
Lemma ValidateCreate_failed (B : Backend) (w : Webhook) (c : client.Client)
    (l : logr.Logger) (s : World) (ul : unstructured.UnstructuredList)
    (e : error) :
  cli w = Some c -> log w = Some l ->
  list_objects B c Background (theList w) (theOptions w) (objects s) = (ul, Some e) ->
  exec B (ValidateCreate w) s =
  (Returned (Some e),
   {| objects := objects s;
      logged := (logged s ++
                 [mkLogEntry l e "Failed to list objects in namespace"
                    [("namespace", client.GetNamespace (object w))]])%list;
      webhooks := webhooks s |}).
Proof.
  intros Hcli Hlog Hlist. unfold ValidateCreate. rewrite Hcli. simpl.
  unfold theList, theOptions in Hlist. rewrite Hlist. simpl.
  rewrite Hlog. reflexivity.
Qed.

(** ** The decision on a successful read *)

(** The verdict of [Handle] on a matching create request whose list call
    succeeded with [ul]: it looks at the first item of [ul] and at no
    other. *)
Lemma Handle_listed (B : Backend) (w : Webhook) (ctx : Context)
    (req : admission.Request) (c : client.Client) (s : World)
    (ul : unstructured.UnstructuredList) :
  matches w req -> cli w = Some c ->
  list_objects B c Background (theList w) (theOptions w) (objects s) = (ul, None) ->
  exec B (Handle w ctx req) s =
  (Returned
     match unstructured.Items ul with
     | [] => admission.Allowed ""
     | item :: _ =>
         match unstructured.GetDeletionTimestamp item with
         | Some _ => admission.Allowed ""
         | None => admission.Denied onlyOne
         end
     end, s).
Proof.
  intros Hm Hcli Hlist.
  rewrite (Handle_matches w ctx req Hm), exec_bind.
  rewrite (ValidateCreate_listed B w c s ul Hcli Hlist).
  destruct (unstructured.Items ul) as [| item rest]; [reflexivity |].
  destruct (unstructured.GetDeletionTimestamp item); reflexivity.
Qed.

(** An error that is a plain leaf is never taken for the sentinel, not
    even when it carries the sentinel's text. *)
Lemma leaf_is_not_sentinel (msg : string) :
  errors.Is (errorString msg) ErrThereCanBeOnlyOne = false.
Proof. reflexivity. Qed.

(** C8: a request that is not a create, or whose group, version or kind
    differs from the gate's bound identity, is answered [Allowed] with
    the empty message, and the answer is given without any call: the
    body is a bare return, so under every implementation of the
    collaborators and in every world the verdict is the same, the world
    is untouched and no list call is made. *)
Theorem Handle_allows_other_requests (w : Webhook) (ctx : Context)
    (req : admission.Request) :
  admission.Operation req <> admissionv1.Create \/
  schema.Group (admission.Kind req) <> schema.Group (gvk w) \/
  schema.Version (admission.Kind req) <> schema.Version (gvk w) \/
  schema.Kind (admission.Kind req) <> schema.Kind (gvk w) ->
  Handle w ctx req = Ret (admission.Allowed "") /\
  (forall (B : Backend) (s : World),
     exec B (Handle w ctx req) s = (Returned (admission.Allowed ""), s) /\
     reads B (Handle w ctx req) s = O).
Proof.
  intros H. rewrite (Handle_other w ctx req H).
  split; [reflexivity | intros B s; split; reflexivity].
Qed.

(** An update of a Widget, and a create of another kind, sent to the
    Widget gate. *)
Lemma Handle_allows_other_requests_witness :
  (Handle (Scenario.gateIn "team-a") Background
     (admission.mkRequest admissionv1.Update Scenario.widgetGVK "team-a" "w1")
   = Ret (admission.Allowed "") /\
   forall (B : Backend) (s : World),
     exec B (Handle (Scenario.gateIn "team-a") Background
       (admission.mkRequest admissionv1.Update Scenario.widgetGVK "team-a" "w1")) s
     = (Returned (admission.Allowed ""), s) /\
     reads B (Handle (Scenario.gateIn "team-a") Background
       (admission.mkRequest admissionv1.Update Scenario.widgetGVK "team-a" "w1")) s
     = O) /\
  (Handle (Scenario.gateIn "team-a") Background
     (admission.mkRequest admissionv1.Create
        (schema.mkGVK "apps.example.io" "v1" "Gadget") "team-a" "g1")
   = Ret (admission.Allowed "") /\
   forall (B : Backend) (s : World),
     exec B (Handle (Scenario.gateIn "team-a") Background
       (admission.mkRequest admissionv1.Create
          (schema.mkGVK "apps.example.io" "v1" "Gadget") "team-a" "g1")) s
     = (Returned (admission.Allowed ""), s) /\
     reads B (Handle (Scenario.gateIn "team-a") Background
       (admission.mkRequest admissionv1.Create
          (schema.mkGVK "apps.example.io" "v1" "Gadget") "team-a" "g1")) s
     = O).
Proof.
  split.
  - apply (Handle_allows_other_requests (Scenario.gateIn "team-a") Background
             (admission.mkRequest admissionv1.Update Scenario.widgetGVK
                "team-a" "w1")).
    left. simpl. discriminate.
  - apply (Handle_allows_other_requests (Scenario.gateIn "team-a") Background
             (admission.mkRequest admissionv1.Create
                (schema.mkGVK "apps.example.io" "v1" "Gadget") "team-a" "g1")).
    right. right. right. simpl. discriminate.
Defined.

(** C6: when the namespace the gate queries holds exactly one instance
    and that instance has no deletion timestamp, [ValidateCreate]
    returns the sentinel [ErrThereCanBeOnlyOne] itself and [Handle]
    answers [Denied] with exactly the sentinel's text.  The sentinel is
    told apart from any other error by identity: a leaf error is not the
    sentinel whatever its text, and [Handle] turns it into [Errored],
    not [Denied]. *)
Theorem Handle_denies_single_live_instance (B : Backend) (w : Webhook)
    (ctx : Context) (req : admission.Request) (c : client.Client) (s : World)
    (ul : unstructured.UnstructuredList) (item : unstructured.Unstructured) :
  matches w req -> cli w = Some c ->
  list_objects B c Background (theList w) (theOptions w) (objects s) = (ul, None) ->
  unstructured.Items ul = [item] ->
  unstructured.GetDeletionTimestamp item = None ->
  exec B (ValidateCreate w) s = (Returned (Some ErrThereCanBeOnlyOne), s) /\
  exec B (Handle w ctx req) s =
    (Returned (admission.Denied
       "there can be only one instance of this object per namespace"), s) /\
  (forall msg : string,
     errors.Is (errorString msg) ErrThereCanBeOnlyOne = false /\
     respond (Some (errorString msg)) =
       Ret (admission.Errored http.StatusBadRequest (errorString msg))).
Proof.
  intros Hm Hcli Hlist Hitems Hlive. repeat split.
  - rewrite (ValidateCreate_listed B w c s ul Hcli Hlist), Hitems, Hlive.
    reflexivity.
  - rewrite (Handle_listed B w ctx req c s ul Hm Hcli Hlist), Hitems, Hlive.
    reflexivity.
Qed.

(** The scenario of the specification: [team-a] holds the live Widget
    [w1], and [w2] is to be created. *)
Lemma Handle_denies_single_live_instance_witness :
  exec (apiserver None) (ValidateCreate (Scenario.gateIn "team-a"))
    (Scenario.cluster [Scenario.widget "team-a" "w1" None])
  = (Returned (Some ErrThereCanBeOnlyOne),
     Scenario.cluster [Scenario.widget "team-a" "w1" None]) /\
  exec (apiserver None)
    (Handle (Scenario.gateIn "team-a") Background
       (Scenario.createWidget "team-a" "w2"))
    (Scenario.cluster [Scenario.widget "team-a" "w1" None])
  = (Returned (admission.Denied
       "there can be only one instance of this object per namespace"),
     Scenario.cluster [Scenario.widget "team-a" "w1" None]) /\
  (forall msg : string,
     errors.Is (errorString msg) ErrThereCanBeOnlyOne = false /\
     respond (Some (errorString msg)) =
       Ret (admission.Errored http.StatusBadRequest (errorString msg))).
Proof.
  apply (Handle_denies_single_live_instance (apiserver None)
           (Scenario.gateIn "team-a") Background
           (Scenario.createWidget "team-a" "w2") (client.Conn 0)
           (Scenario.cluster [Scenario.widget "team-a" "w1" None])
           (unstructured.mkList Scenario.widgetGVK
              [Scenario.widget "team-a" "w1" None])
           (Scenario.widget "team-a" "w1" None)).
  - repeat split.
  - reflexivity.
  - reflexivity.
  - reflexivity.
  - reflexivity.
Defined.

(** C7: when the namespace the gate queries holds exactly one instance
    and that instance carries a deletion timestamp, [Handle] answers
    [Allowed]. *)
Theorem Handle_allows_single_deleting_instance (B : Backend) (w : Webhook)
    (ctx : Context) (req : admission.Request) (c : client.Client) (s : World)
    (ul : unstructured.UnstructuredList) (item : unstructured.Unstructured)
    (t : Time) :
  matches w req -> cli w = Some c ->
  list_objects B c Background (theList w) (theOptions w) (objects s) = (ul, None) ->
  unstructured.Items ul = [item] ->
  unstructured.GetDeletionTimestamp item = Some t ->
  exec B (Handle w ctx req) s = (Returned (admission.Allowed ""), s).
Proof.
  intros Hm Hcli Hlist Hitems Hdel.
  rewrite (Handle_listed B w ctx req c s ul Hm Hcli Hlist), Hitems, Hdel.
  reflexivity.
Qed.

(** [w1] has been marked for deletion at time 5; [w2] may be created. *)
Lemma Handle_allows_single_deleting_instance_witness :
  exec (apiserver None)
    (Handle (Scenario.gateIn "team-a") Background
       (Scenario.createWidget "team-a" "w2"))
    (Scenario.cluster [Scenario.widget "team-a" "w1" (Some 5)])
  = (Returned (admission.Allowed ""),
     Scenario.cluster [Scenario.widget "team-a" "w1" (Some 5)]).
Proof.
  apply (Handle_allows_single_deleting_instance (apiserver None)
           (Scenario.gateIn "team-a") Background
           (Scenario.createWidget "team-a" "w2") (client.Conn 0)
           (Scenario.cluster [Scenario.widget "team-a" "w1" (Some 5)])
           (unstructured.mkList Scenario.widgetGVK
              [Scenario.widget "team-a" "w1" (Some 5)])
           (Scenario.widget "team-a" "w1" (Some 5)) 5).
  - repeat split.
  - reflexivity.
  - reflexivity.
  - reflexivity.
  - reflexivity.
Defined.

(** ** Snapshots with more than one instance *)

(** The rule [Handle] follows on a successful read: it denies exactly
    when the list is not empty and its _first_ item is live. *)
Theorem Handle_denies_iff_first_instance_live (B : Backend) (w : Webhook)
    (ctx : Context) (req : admission.Request) (c : client.Client) (s : World)
    (ul : unstructured.UnstructuredList) :
  matches w req -> cli w = Some c ->
  list_objects B c Background (theList w) (theOptions w) (objects s) = (ul, None) ->
  (exec B (Handle w ctx req) s = (Returned (admission.Denied onlyOne), s) <->
   exists item rest,
     unstructured.Items ul = item :: rest /\ live item = true) /\
  (exec B (Handle w ctx req) s = (Returned (admission.Allowed ""), s) <->
   ~ exists item rest,
     unstructured.Items ul = item :: rest /\ live item = true).
Proof.
  intros Hm Hcli Hlist.
  rewrite (Handle_listed B w ctx req c s ul Hm Hcli Hlist). unfold live.
  destruct (unstructured.Items ul) as [| item rest].
  - split; split; try discriminate.
    + intros (i & r & H & _). discriminate.
    + intros _ (i & r & H & _). discriminate.
    + reflexivity.
  - destruct (unstructured.GetDeletionTimestamp item) eqn:Hdel.
    + split; split; try discriminate.
      * intros (i & r & H & Hl). injection H as <- <-. rewrite Hdel in Hl.
        discriminate.
      * intros _ (i & r & H & Hl). injection H as <- <-. rewrite Hdel in Hl.
        discriminate.
      * reflexivity.
    + split; split; try discriminate.
      * intros _. exists item, rest. rewrite Hdel. split; reflexivity.
      * reflexivity.
      * intros H. exfalso. apply H. exists item, rest. rewrite Hdel.
        split; reflexivity.
Qed.

Lemma Handle_denies_iff_first_instance_live_witness :
  (exec (apiserver None)
     (Handle (Scenario.gateIn "team-a") Background
        (Scenario.createWidget "team-a" "w3"))
     (Scenario.cluster [Scenario.widget "team-a" "w1" None;
                        Scenario.widget "team-a" "w2" (Some 5)])
   = (Returned (admission.Denied onlyOne),
      Scenario.cluster [Scenario.widget "team-a" "w1" None;
                        Scenario.widget "team-a" "w2" (Some 5)]) <->
   exists item rest,
     [Scenario.widget "team-a" "w1" None;
      Scenario.widget "team-a" "w2" (Some 5)] = item :: rest /\
     live item = true) /\
  (exec (apiserver None)
     (Handle (Scenario.gateIn "team-a") Background
        (Scenario.createWidget "team-a" "w3"))
     (Scenario.cluster [Scenario.widget "team-a" "w1" None;
                        Scenario.widget "team-a" "w2" (Some 5)])
   = (Returned (admission.Allowed ""),
      Scenario.cluster [Scenario.widget "team-a" "w1" None;
                        Scenario.widget "team-a" "w2" (Some 5)]) <->
   ~ exists item rest,
     [Scenario.widget "team-a" "w1" None;
      Scenario.widget "team-a" "w2" (Some 5)] = item :: rest /\
     live item = true).
Proof.
  apply (Handle_denies_iff_first_instance_live (apiserver None)
           (Scenario.gateIn "team-a") Background
           (Scenario.createWidget "team-a" "w3") (client.Conn 0)
           (Scenario.cluster [Scenario.widget "team-a" "w1" None;
                              Scenario.widget "team-a" "w2" (Some 5)])
           (unstructured.mkList Scenario.widgetGVK
              [Scenario.widget "team-a" "w1" None;
               Scenario.widget "team-a" "w2" (Some 5)])).
  - repeat split.
  - reflexivity.
  - reflexivity.
Defined.

(** C1, evaluated where the code departs from it: [team-a] holds [w1],
    marked for deletion, and after it the live [w2].  The read succeeds
    and its snapshot contains a live instance, yet the create of [w3] is
    answered [Allowed]: only [Items[0]] is looked at. *)
Theorem Handle_allows_behind_deleting_first :
  list_objects (apiserver None) (client.Conn 0) Background
    (theList (Scenario.gateIn "team-a")) (theOptions (Scenario.gateIn "team-a"))
    [Scenario.widget "team-a" "w1" (Some 5); Scenario.widget "team-a" "w2" None]
  = (unstructured.mkList Scenario.widgetGVK
       [Scenario.widget "team-a" "w1" (Some 5);
        Scenario.widget "team-a" "w2" None], None) /\
  existsb live
    [Scenario.widget "team-a" "w1" (Some 5); Scenario.widget "team-a" "w2" None]
  = true /\
  exec (apiserver None)
    (Handle (Scenario.gateIn "team-a") Background
       (Scenario.createWidget "team-a" "w3"))
    (Scenario.cluster [Scenario.widget "team-a" "w1" (Some 5);
                       Scenario.widget "team-a" "w2" None])
  = (Returned (admission.Allowed ""),
     Scenario.cluster [Scenario.widget "team-a" "w1" (Some 5);
                       Scenario.widget "team-a" "w2" None]).
Proof. repeat split. Qed.

(** An empty namespace: the create is allowed. *)
Theorem Handle_allows_empty_namespace (B : Backend) (w : Webhook)
    (ctx : Context) (req : admission.Request) (c : client.Client) (s : World)
    (ul : unstructured.UnstructuredList) :
  matches w req -> cli w = Some c ->
  list_objects B c Background (theList w) (theOptions w) (objects s) = (ul, None) ->
  unstructured.Items ul = [] ->
  exec B (Handle w ctx req) s = (Returned (admission.Allowed ""), s).
Proof.
  intros Hm Hcli Hlist Hitems.
  rewrite (Handle_listed B w ctx req c s ul Hm Hcli Hlist), Hitems.
  reflexivity.
Qed.

Lemma Handle_allows_empty_namespace_witness :
  exec (apiserver None)
    (Handle (Scenario.gateIn "team-a") Background
       (Scenario.createWidget "team-a" "w1"))
    (Scenario.cluster [])
  = (Returned (admission.Allowed ""), Scenario.cluster []).
Proof.
  apply (Handle_allows_empty_namespace (apiserver None)
           (Scenario.gateIn "team-a") Background
           (Scenario.createWidget "team-a" "w1") (client.Conn 0)
           (Scenario.cluster [])
           (unstructured.mkList Scenario.widgetGVK [])).
  - repeat split.
  - reflexivity.
  - reflexivity.
  - reflexivity.
Defined.

(** ** A failed read *)

(** C3, as the code has it: when the list call fails with an error [e]
    that is not the sentinel (and does not wrap it), [Handle] logs the
    failure and answers [Errored] carrying [e] itself, neither [Denied]
    nor [Allowed]; the status code it passes is [http.StatusBadRequest],
    that is 400, a code of the client-error class and not of the
    server-error class. *)
Theorem Handle_list_failure_is_bad_request (B : Backend) (w : Webhook)
    (ctx : Context) (req : admission.Request) (c : client.Client)
    (l : logr.Logger) (s : World) (ul : unstructured.UnstructuredList)
    (e : error) :
  matches w req -> cli w = Some c -> log w = Some l ->
  list_objects B c Background (theList w) (theOptions w) (objects s) = (ul, Some e) ->
  errors.Is e ErrThereCanBeOnlyOne = false ->
  fst (exec B (Handle w ctx req) s)
    = Returned (admission.Errored http.StatusBadRequest e) /\
  http.StatusBadRequest = 400 /\
  http.isClientError http.StatusBadRequest = true /\
  http.isServerError http.StatusBadRequest = false.
Proof.
  intros Hm Hcli Hlog Hlist Hnot.
  rewrite (Handle_matches w ctx req Hm), exec_bind.
  rewrite (ValidateCreate_failed B w c l s ul e Hcli Hlog Hlist).
  simpl. rewrite Hnot. repeat split.
Qed.

(** The API server is down ("connection refused"). *)
Lemma Handle_list_failure_is_bad_request_witness :
  fst (exec (apiserver (Some (errorString "connection refused")))
         (Handle (Scenario.gateIn "team-a") Background
            (Scenario.createWidget "team-a" "w2"))
         (Scenario.cluster [Scenario.widget "team-a" "w1" None]))
    = Returned (admission.Errored http.StatusBadRequest
                  (errorString "connection refused")) /\
  http.StatusBadRequest = 400 /\
  http.isClientError http.StatusBadRequest = true /\
  http.isServerError http.StatusBadRequest = false.
Proof.
  apply (Handle_list_failure_is_bad_request
           (apiserver (Some (errorString "connection refused")))
           (Scenario.gateIn "team-a") Background
           (Scenario.createWidget "team-a" "w2") (client.Conn 0)
           (logr.Named "highlander")
           (Scenario.cluster [Scenario.widget "team-a" "w1" None])
           (theList (Scenario.gateIn "team-a"))
           (errorString "connection refused")).
  - repeat split.
  - reflexivity.
  - reflexivity.
  - reflexivity.
  - reflexivity.
Defined.

(** C3 as stated fails twice.  With the server down, the verdict is
    [Errored] with code 400, which is no server-error code; and a list
    error that wraps the sentinel is answered [Denied], not [Errored]. *)
Lemma Handle_list_failure_counterexample :
  (fst (exec (apiserver (Some (errorString "connection refused")))
          (Handle (Scenario.gateIn "team-a") Background
             (Scenario.createWidget "team-a" "w2"))
          (Scenario.cluster []))
     = Returned (admission.Errored 400 (errorString "connection refused")) /\
   http.isServerError 400 = false) /\
  fst (exec (apiserver (Some (wrapError "list failed" ErrThereCanBeOnlyOne)))
         (Handle (Scenario.gateIn "team-a") Background
            (Scenario.createWidget "team-a" "w2"))
         (Scenario.cluster []))
    = Returned (admission.Denied "list failed").
Proof. repeat split. Qed.

(** A failed read is logged once, with the listed namespace as context,
    and nothing else in the world changes. *)
Theorem Handle_list_failure_is_logged (B : Backend) (w : Webhook)
    (ctx : Context) (req : admission.Request) (c : client.Client)
    (l : logr.Logger) (s : World) (ul : unstructured.UnstructuredList)
    (e : error) :
  matches w req -> cli w = Some c -> log w = Some l ->
  list_objects B c Background (theList w) (theOptions w) (objects s) = (ul, Some e) ->
  snd (exec B (Handle w ctx req) s) =
  {| objects := objects s;
     logged := (logged s ++
                [mkLogEntry l e "Failed to list objects in namespace"
                   [("namespace", client.GetNamespace (object w))]])%list;
     webhooks := webhooks s |}.
Proof.
  intros Hm Hcli Hlog Hlist.
  rewrite (Handle_matches w ctx req Hm), exec_bind.
  rewrite (ValidateCreate_failed B w c l s ul e Hcli Hlog Hlist).
  simpl. destruct (errors.Is e ErrThereCanBeOnlyOne); reflexivity.
Qed.

Lemma Handle_list_failure_is_logged_witness :
  snd (exec (apiserver (Some (errorString "connection refused")))
         (Handle (Scenario.gateIn "team-a") Background
            (Scenario.createWidget "team-a" "w2"))
         (Scenario.cluster [])) =
  {| objects := [];
     logged := [mkLogEntry (logr.Named "highlander")
                  (errorString "connection refused")
                  "Failed to list objects in namespace"
                  [("namespace", "team-a")]];
     webhooks := [] |}.
Proof.
  apply (Handle_list_failure_is_logged
           (apiserver (Some (errorString "connection refused")))
           (Scenario.gateIn "team-a") Background
           (Scenario.createWidget "team-a" "w2") (client.Conn 0)
           (logr.Named "highlander") (Scenario.cluster [])
           (theList (Scenario.gateIn "team-a"))
           (errorString "connection refused")).
  - repeat split.
  - reflexivity.
  - reflexivity.
  - reflexivity.
Defined.

(** ** Which calls the gate makes *)

(** The calls of [ValidateCreate] are one list call, under [Background]
    and for the namespace of the gate's own object, and then at most a
    log call. *)
Lemma never_ValidateCreate (bad : forall X, Op X -> bool) (w : Webhook) :
  (forall c, bad _ (ClientList c Background (theList w) (theOptions w)) = false) ->
  (forall l err msg kvs, bad _ (LoggerError l err msg kvs) = false) ->
  never bad (ValidateCreate w).
Proof.
  intros Hlist Hlog. unfold ValidateCreate.
  destruct (cli w) as [c |]; simpl; [| exact I].
  split; [apply Hlist |].
  intros [ul [e |]]; simpl.
  - destruct (log w) as [l |]; simpl; [| exact I].
    split; [apply Hlog | intros []; exact I].
  - destruct (unstructured.Items ul) as [| item rest]; simpl; [exact I |].
    destruct (unstructured.GetDeletionTimestamp item); exact I.
Qed.

Lemma never_respond (bad : forall X, Op X -> bool) (err : option error) :
  never bad (respond err).
Proof.
  destruct err as [e |]; simpl; [| exact I].
  destruct (errors.Is e ErrThereCanBeOnlyOne); exact I.
Qed.

Lemma never_Handle (bad : forall X, Op X -> bool) (w : Webhook)
    (ctx : Context) (req : admission.Request) :
  (forall c, bad _ (ClientList c Background (theList w) (theOptions w)) = false) ->
  (forall l err msg kvs, bad _ (LoggerError l err msg kvs) = false) ->
  never bad (Handle w ctx req).
Proof.
  intros Hlist Hlog. unfold Handle.
  destruct (strNeq (admission.Operation req) admissionv1.Create); [exact I |].
  destruct (_ || _ || _); [exact I |].
  apply never_bind.
  - apply never_ValidateCreate; assumption.
  - apply never_respond.
Qed.

(** [Handle] makes at most one list call. *)
Lemma Handle_reads_at_most_once (B : Backend) (w : Webhook) (ctx : Context)
    (req : admission.Request) (s : World) :
  (reads B (Handle w ctx req) s <= 1)%nat.
Proof.
  unfold Handle.
  destruct (strNeq (admission.Operation req) admissionv1.Create);
    [simpl; lia |].
  destruct (_ || _ || _); [simpl; lia |].
  unfold ValidateCreate.
  destruct (cli w) as [c |]; simpl; [| lia].
  destruct (list_objects B c Background _ _ (objects s)) as [ul [e |]]; simpl.
  - destruct (log w) as [l |]; simpl; [| lia].
    destruct (errors.Is e ErrThereCanBeOnlyOne); simpl; lia.
  - destruct (unstructured.Items ul) as [| item rest]; simpl; [lia |].
    destruct (unstructured.GetDeletionTimestamp item); simpl; lia.
Qed.

(** C5, as the code has it: the read is not bound to the context passed
    to [Handle].  Every list call [Handle] makes is made under
    [context.Background()], which is never done; there is at most one
    such call; and the body of [Handle] is the same for every context,
    so that cancelling the caller's context changes nothing in what the
    gate does or answers. *)
Theorem Handle_reads_under_background (w : Webhook) (ctx : Context)
    (req : admission.Request) :
  never (@listsUnderCallerContext) (Handle w ctx req) /\
  context.Err Background = None /\
  (forall (B : Backend) (s : World), (reads B (Handle w ctx req) s <= 1)%nat) /\
  (forall ctx' : Context, Handle w ctx' req = Handle w ctx req).
Proof.
  repeat split.
  - apply never_Handle; reflexivity.
  - intros B s. apply Handle_reads_at_most_once.
Qed.

(** C5 as stated fails: the caller's context has been cancelled, the API
    server would refuse a list call made under it with the cancellation
    cause, and yet [Handle] answers [Allowed]. *)
Lemma Handle_cancelled_context_counterexample :
  context.Err (WithCancel Background (Some context.Canceled))
    = Some context.Canceled /\
  snd (list_objects (apiserver None) (client.Conn 0)
         (WithCancel Background (Some context.Canceled))
         (theList (Scenario.gateIn "team-a"))
         (theOptions (Scenario.gateIn "team-a")) [])
    = Some context.Canceled /\
  exec (apiserver None)
    (Handle (Scenario.gateIn "team-a")
       (WithCancel Background (Some context.Canceled))
       (Scenario.createWidget "team-a" "w1"))
    (Scenario.cluster [])
  = (Returned (admission.Allowed ""), Scenario.cluster []).
Proof. repeat split. Qed.

(** The namespace of the request plays no part: two requests that differ
    only in it get the same body, and every list call is for the
    namespace of the object the gate was built for. *)
Theorem Handle_ignores_request_namespace (w : Webhook) (ctx : Context)
    (op : admissionv1.Operation) (kind : schema.GroupVersionKind)
    (ns ns' name : string) :
  Handle w ctx (admission.mkRequest op kind ns name)
    = Handle w ctx (admission.mkRequest op kind ns' name) /\
  never (@listsOutside (client.GetNamespace (object w)))
    (Handle w ctx (admission.mkRequest op kind ns name)).
Proof.
  split; [reflexivity |].
  apply never_Handle; [| reflexivity].
  intros c. simpl. unfold strNeq. rewrite String.eqb_refl. reflexivity.
Qed.

(** C2, evaluated where the code departs from it.  [team-a] holds the
    live Widget [w1] and [team-b] holds nothing.  A gate built for an
    object of namespace [team-a] denies a create in the empty [team-b],
    and so does a gate built for an object without a namespace (the
    usual [&Widget{}]), which lists all namespaces; the requests for
    [team-a] and [team-b] have one and the same body. *)
Theorem Handle_lists_its_own_namespace :
  unstructured.Items
    (fst (list_objects (apiserver None) (client.Conn 0) Background
            (theList (Scenario.gateIn "team-a"))
            {| client.Namespace := "team-b" |}
            [Scenario.widget "team-a" "w1" None])) = [] /\
  fst (exec (apiserver None)
         (Handle (Scenario.gateIn "team-a") Background
            (Scenario.createWidget "team-b" "w2"))
         (Scenario.cluster [Scenario.widget "team-a" "w1" None]))
    = Returned (admission.Denied onlyOne) /\
  fst (exec (apiserver None)
         (Handle (Scenario.gateIn "") Background
            (Scenario.createWidget "team-b" "w2"))
         (Scenario.cluster [Scenario.widget "team-a" "w1" None]))
    = Returned (admission.Denied onlyOne) /\
  Handle (Scenario.gateIn "team-a") Background
    (Scenario.createWidget "team-a" "w2")
  = Handle (Scenario.gateIn "team-a") Background
      (Scenario.createWidget "team-b" "w2").
Proof. repeat split. Qed.

(** A gate built for [team-b] allows a second live Widget in [team-a]. *)
Lemma Handle_allows_second_instance_elsewhere :
  fst (exec (apiserver None)
         (Handle (Scenario.gateIn "team-b") Background
            (Scenario.createWidget "team-a" "w2"))
         (Scenario.cluster [Scenario.widget "team-a" "w1" None]))
    = Returned (admission.Allowed "").
Proof. reflexivity. Qed.

(** ** The gate only reads *)

(** C9: no call of [Handle] is a create, an update or a delete, whatever
    the request and whatever the answers it gets; hence under every
    implementation of the collaborators and from every world, the stored
    objects after [Handle] are the stored objects before it, and so are
    the routes of the webhook server.  This holds for every outcome:
    [Allowed], [Denied], [Errored] or a panic. *)
Theorem Handle_never_writes (B : Backend) (w : Webhook) (ctx : Context)
    (req : admission.Request) (s : World) :
  never (@writes) (Handle w ctx req) /\
  objects (snd (exec B (Handle w ctx req) s)) = objects s /\
  webhooks (snd (exec B (Handle w ctx req) s)) = webhooks s.
Proof.
  assert (H : never (@writes) (Handle w ctx req))
    by (apply never_Handle; reflexivity).
  assert (R : never (@registers) (Handle w ctx req))
    by (apply never_Handle; reflexivity).
  split; [exact H | split].
  - apply never_writes_keeps_objects; exact H.
  - apply never_registers_keeps_webhooks; exact R.
Qed.

(** ** The route *)

Lemma append_cancel_l (a b c : string) : (a ++ b)%string = (a ++ c)%string -> b = c.
Proof.
  induction a as [| ch a IH]; simpl; intros H; [exact H |].
  injection H as H. apply IH, H.
Qed.

(** Two identities of one group and version get the same route exactly
    when their kinds agree once lower-cased. *)
Lemma generateValidatePath_same_iff (g v k1 k2 : string) :
  generateValidatePath (schema.mkGVK g v k1)
    = generateValidatePath (schema.mkGVK g v k2) <->
  strings.ToLower k1 = strings.ToLower k2.
Proof.
  unfold generateValidatePath; simpl schema.Group; simpl schema.Version;
    simpl schema.Kind.
  split.
  - intros H. repeat apply append_cancel_l in H. exact H.
  - intros H. rewrite H. reflexivity.
Qed.

(** C4, as the code has it: the route is a function of (group, version,
    kind), so equal triples get character-identical routes; within one
    group and version it tells kinds apart only up to letter case: two
    kinds get the same route if and only if their lower-cased forms are
    equal. *)
Theorem generateValidatePath_injective_up_to_case (g v k1 k2 : string) :
  (forall gvk1 gvk2 : schema.GroupVersionKind,
     gvk1 = gvk2 -> generateValidatePath gvk1 = generateValidatePath gvk2) /\
  (generateValidatePath (schema.mkGVK g v k1)
     = generateValidatePath (schema.mkGVK g v k2) <->
   strings.ToLower k1 = strings.ToLower k2).
Proof.
  split.
  - intros gvk1 gvk2 H. rewrite H. reflexivity.
  - apply generateValidatePath_same_iff.
Qed.

(** C4 as stated fails: [Widget] and [WIDGET] are two kinds of one group
    and version, and they get the same route. *)
Lemma generateValidatePath_counterexample :
  "Widget" <> "WIDGET" /\
  generateValidatePath (schema.mkGVK "apps.example.io" "v1" "Widget")
    = generateValidatePath (schema.mkGVK "apps.example.io" "v1" "WIDGET") /\
  generateValidatePath (schema.mkGVK "apps.example.io" "v1" "Widget")
    = "/highlander-apps-example-io-v1-widget".
Proof. repeat split. discriminate. Qed.

(** ** Setup *)

(** C10: if the type-scheme lookup of the protected object fails with
    [e], [SetupWithManager] returns [e] and makes no call at all; in
    particular it does not register: under every implementation of the
    collaborators, the routes of the webhook server (and the whole
    world) are what they were. *)
Theorem SetupWithManager_lookup_failure (w : Webhook) (mgr : manager.Manager)
    (e : error) :
  snd (apiutil.GVKForObject (object w) (manager.GetScheme mgr)) = Some e ->
  SetupWithManager w mgr = Ret (afterSetup w mgr, Some e) /\
  never (@registers) (SetupWithManager w mgr) /\
  (forall (B : Backend) (s : World),
     exec B (SetupWithManager w mgr) s
       = (Returned (afterSetup w mgr, Some e), s) /\
     webhooks (snd (exec B (SetupWithManager w mgr) s)) = webhooks s).
Proof.
  intros H.
  assert (E : SetupWithManager w mgr = Ret (afterSetup w mgr, Some e)).
  { unfold SetupWithManager. simpl. rewrite H. reflexivity. }
  rewrite E. repeat split.
Qed.

(** A manager whose scheme does not know the Go type of the object. *)
Lemma SetupWithManager_lookup_failure_witness :
  SetupWithManager (NewFor (client.mkObject "*v1.Gadget" "" ""))
    Scenario.theManager
  = Ret (afterSetup (NewFor (client.mkObject "*v1.Gadget" "" ""))
           Scenario.theManager,
         Some (errorString "no kind is registered for the type")) /\
  never (@registers)
    (SetupWithManager (NewFor (client.mkObject "*v1.Gadget" "" ""))
       Scenario.theManager) /\
  (forall (B : Backend) (s : World),
     exec B (SetupWithManager (NewFor (client.mkObject "*v1.Gadget" "" ""))
               Scenario.theManager) s
       = (Returned (afterSetup (NewFor (client.mkObject "*v1.Gadget" "" ""))
                      Scenario.theManager,
                    Some (errorString "no kind is registered for the type")), s) /\
     webhooks (snd (exec B
       (SetupWithManager (NewFor (client.mkObject "*v1.Gadget" "" ""))
          Scenario.theManager) s)) = webhooks s).
Proof.
  apply (SetupWithManager_lookup_failure
           (NewFor (client.mkObject "*v1.Gadget" "" "")) Scenario.theManager
           (errorString "no kind is registered for the type")).
  reflexivity.
Defined.

(** On success, [SetupWithManager] makes exactly one call: it registers
    the gate, as set up, under the route derived from the resolved
    identity, and returns no error. *)
Theorem SetupWithManager_registers_on_success (w : Webhook)
    (mgr : manager.Manager) :
  snd (apiutil.GVKForObject (object w) (manager.GetScheme mgr)) = None ->
  SetupWithManager w mgr =
  Vis (ServerRegister (manager.GetWebhookServer mgr)
         (generateValidatePath (gvk (afterSetup w mgr)))
         {| admission.Handler := afterSetup w mgr;
            admission.log := Some (manager.GetLogger mgr);
            admission.scheme := Some (manager.GetScheme mgr) |})
      (fun _ => Ret (afterSetup w mgr, None)).
Proof.
  intros H. unfold SetupWithManager. simpl. rewrite H. reflexivity.
Qed.

Lemma SetupWithManager_registers_on_success_witness :
  SetupWithManager (NewFor (Scenario.widgetIn "")) Scenario.theManager =
  Vis (ServerRegister (webhook.Listening 9443)
         "/highlander-apps-example-io-v1-widget"
         {| admission.Handler := Scenario.gateIn "";
            admission.log := Some (logr.Named "highlander");
            admission.scheme := Some Scenario.scheme |})
      (fun _ => Ret (Scenario.gateIn "", None)).
Proof.
  apply (SetupWithManager_registers_on_success
           (NewFor (Scenario.widgetIn "")) Scenario.theManager).
  reflexivity.
Defined.

(** ** The gate before and after setup *)





(** A gate whose client is still [nil] (one that [NewFor] built and
    [SetupWithManager] never saw) panics with a nil dereference on a
    create request for its identity, before anything is read or logged. *)
Theorem Handle_without_client_panics (B : Backend) (w : Webhook)
    (ctx : Context) (req : admission.Request) (s : World) :
  matches w req -> cli w = None ->
  exec B (Handle w ctx req) s = (Panicked nilDereference, s) /\
  reads B (Handle w ctx req) s = O.
Proof.
  intros Hm Hcli. rewrite (Handle_matches w ctx req Hm).
  unfold ValidateCreate. rewrite Hcli. split; reflexivity.
Qed.

(** A fresh gate is bound to the zero identity: a create request that
    names no group, version or kind reaches the nil client. *)
Lemma Handle_without_client_panics_witness :
  exec (apiserver None)
    (Handle (NewFor (Scenario.widgetIn "")) Background
       (admission.mkRequest admissionv1.Create (schema.mkGVK "" "" "")
          "team-a" "w1"))
    (Scenario.cluster [])
  = (Panicked nilDereference, Scenario.cluster []) /\
  reads (apiserver None)
    (Handle (NewFor (Scenario.widgetIn "")) Background
       (admission.mkRequest admissionv1.Create (schema.mkGVK "" "" "")
          "team-a" "w1"))
    (Scenario.cluster []) = O.
Proof.
  apply (Handle_without_client_panics (apiserver None)
           (NewFor (Scenario.widgetIn "")) Background
           (admission.mkRequest admissionv1.Create (schema.mkGVK "" "" "")
              "team-a" "w1")
           (Scenario.cluster [])).
  - repeat split.
  - reflexivity.
Defined.

(** On a create request for its identity, a gate with a client makes
    exactly one list call, whether the call succeeds or fails. *)
Theorem Handle_reads_exactly_once (B : Backend) (w : Webhook)
    (c : client.Client) (ctx : Context) (req : admission.Request) (s : World) :
  matches w req -> cli w = Some c ->
  reads B (Handle w ctx req) s = 1%nat.
Proof.
  intros Hm Hcli. rewrite (Handle_matches w ctx req Hm).
  unfold ValidateCreate. rewrite Hcli. simpl.
  destruct (list_objects B c Background _ _ (objects s)) as [ul [e |]]; simpl.
  - destruct (log w) as [l |]; simpl; [| reflexivity].
    destruct (errors.Is e ErrThereCanBeOnlyOne); reflexivity.
  - destruct (unstructured.Items ul) as [| item rest]; simpl; [reflexivity |].
    destruct (unstructured.GetDeletionTimestamp item); reflexivity.
Qed.

Lemma Handle_reads_exactly_once_witness :
  reads (apiserver (Some (errorString "connection refused")))
    (Handle (Scenario.gateIn "team-a") Background
       (Scenario.createWidget "team-a" "w2"))
    (Scenario.cluster [Scenario.widget "team-a" "w1" None]) = 1%nat.
Proof.
  apply (Handle_reads_exactly_once
           (apiserver (Some (errorString "connection refused")))
           (Scenario.gateIn "team-a") (client.Conn 0) Background
           (Scenario.createWidget "team-a" "w2")
           (Scenario.cluster [Scenario.widget "team-a" "w1" None])).
  - repeat split.
  - reflexivity.
Defined.

(** [Handle] runs [errors.Is] on whatever [ValidateCreate] returns, the
    list call's own error included: a list failure whose error is, or
    wraps, the sentinel is answered [Denied], with the text of the outer
    error as the reason. *)
Theorem Handle_list_failure_with_sentinel_is_denied (B : Backend)
    (w : Webhook) (ctx : Context) (req : admission.Request)
    (c : client.Client) (l : logr.Logger) (s : World)
    (ul : unstructured.UnstructuredList) (e : error) :
  matches w req -> cli w = Some c -> log w = Some l ->
  list_objects B c Background (theList w) (theOptions w) (objects s) = (ul, Some e) ->
  errors.Is e ErrThereCanBeOnlyOne = true ->
  fst (exec B (Handle w ctx req) s) = Returned (admission.Denied (Error e)).
Proof.
  intros Hm Hcli Hlog Hlist His.
  rewrite (Handle_matches w ctx req Hm), exec_bind.
  rewrite (ValidateCreate_failed B w c l s ul e Hcli Hlog Hlist).
  simpl. rewrite His. reflexivity.
Qed.

Lemma Handle_list_failure_with_sentinel_is_denied_witness :
  fst (exec (apiserver (Some (wrapError "quota: one per namespace"
                                ErrThereCanBeOnlyOne)))
         (Handle (Scenario.gateIn "team-a") Background
            (Scenario.createWidget "team-a" "w2"))
         (Scenario.cluster []))
    = Returned (admission.Denied "quota: one per namespace").
Proof.
  apply (Handle_list_failure_with_sentinel_is_denied
           (apiserver (Some (wrapError "quota: one per namespace"
                               ErrThereCanBeOnlyOne)))
           (Scenario.gateIn "team-a") Background
           (Scenario.createWidget "team-a" "w2") (client.Conn 0)
           (logr.Named "highlander") (Scenario.cluster [])
           (theList (Scenario.gateIn "team-a"))
           (wrapError "quota: one per namespace" ErrThereCanBeOnlyOne)).
  - repeat split.
  - reflexivity.
  - reflexivity.
  - reflexivity.
  - reflexivity.
Defined.

(** ** The shape of a route *)

(** At the package's call, [ReplaceAll] works byte by byte: every dot
    becomes a dash and every other byte stays. *)
Lemma ReplaceAll_dots (s : string) :
  strings.ReplaceAll s "." "-" = mapBytes dotToDash s.
Proof.
  unfold strings.ReplaceAll.
  induction s as [| c rest IH]; [reflexivity |].
  cbn [strings.replaceFrom mapBytes].
  unfold dotToDash. cbn [String.prefix].
  destruct (ascii_dec "." c) as [<- | Hne].
  - replace (String.prefix "" rest) with true by (destruct rest; reflexivity).
    cbn. rewrite IH. reflexivity.
  - assert (E : Ascii.eqb c "." = false)
      by (apply Ascii.eqb_neq; congruence).
    rewrite E, IH. reflexivity.
Qed.


Lemma mapBytes_append (f : ascii -> ascii) (a b : string) :
  mapBytes f (a ++ b) = (mapBytes f a ++ mapBytes f b)%string.
Proof. induction a as [| c a IH]; simpl; [| rewrite IH]; reflexivity. Qed.

Lemma mapBytes_idempotent (f : ascii -> ascii) (s : string) :
  (forall c, f (f c) = f c) -> mapBytes f (mapBytes f s) = mapBytes f s.
Proof.
  intros Hf. induction s as [| c rest IH]; simpl; [| rewrite Hf, IH];
    reflexivity.
Qed.


Lemma ToLower_bytes (s : string) :
  strings.ToLower s = mapBytes strings.toLowerByte s.
Proof. induction s as [| c rest IH]; simpl; [| rewrite IH]; reflexivity. Qed.

Lemma dotToDash_idempotent (c : ascii) : dotToDash (dotToDash c) = dotToDash c.
Proof.
  unfold dotToDash. destruct (Ascii.eqb c ".") eqn:E; [reflexivity |].
  rewrite E. reflexivity.
Qed.


Lemma toLowerByte_idempotent (c : ascii) :
  strings.toLowerByte (strings.toLowerByte c) = strings.toLowerByte c.
Proof. destruct c as [[] [] [] [] [] [] [] []]; reflexivity. Qed.


Lemma append_length (a b : string) :
  String.length (a ++ b) = (String.length a + String.length b)%nat.
Proof. induction a as [| c a IH]; simpl; [| rewrite IH]; reflexivity. Qed.

Lemma append_cancel_r (a b c : string) :
  (a ++ c)%string = (b ++ c)%string -> a = b.
Proof.
  revert b. induction a as [| x a IH]; intros [| y b] H; simpl in H.
  - reflexivity.
  - apply (f_equal String.length) in H. simpl in H.
    rewrite append_length in H. lia.
  - apply (f_equal String.length) in H. simpl in H.
    rewrite append_length in H. lia.
  - injection H as -> H. rewrite (IH b H). reflexivity.
Qed.

Lemma append_assoc (a b c : string) :
  ((a ++ b) ++ c)%string = (a ++ (b ++ c))%string.
Proof. induction a as [| x a IH]; simpl; [| rewrite IH]; reflexivity. Qed.


(** The route does not change when the group's dots are replaced by
    dashes and the kind is lower-cased beforehand: an identity and its
    normal form share one route, so groups that differ only in dots
    against dashes collide just as kinds that differ only in case do. *)
Theorem generateValidatePath_normal_form (g v k : string) :
  generateValidatePath
    (schema.mkGVK (strings.ReplaceAll g "." "-") v (strings.ToLower k))
  = generateValidatePath (schema.mkGVK g v k).
Proof.
  unfold generateValidatePath. simpl.
  rewrite !ReplaceAll_dots, !ToLower_bytes.
  rewrite (mapBytes_idempotent dotToDash g dotToDash_idempotent).
  rewrite (mapBytes_idempotent strings.toLowerByte k toLowerByte_idempotent).
  reflexivity.
Qed.

(** With the other two components fixed, the route determines the
    version exactly, and the group up to dots against dashes. *)
Theorem generateValidatePath_group_and_version (g1 g2 v1 v2 k : string) :
  (generateValidatePath (schema.mkGVK g1 v1 k)
     = generateValidatePath (schema.mkGVK g1 v2 k) <-> v1 = v2) /\
  (generateValidatePath (schema.mkGVK g1 v1 k)
     = generateValidatePath (schema.mkGVK g2 v1 k) <->
   strings.ReplaceAll g1 "." "-" = strings.ReplaceAll g2 "." "-").
Proof.
  unfold generateValidatePath.
  cbn [schema.Group schema.Version schema.Kind]. split; split.
  - intros H. do 3 apply append_cancel_l in H.
    apply append_cancel_r in H. exact H.
  - intros ->. reflexivity.
  - intros H. apply append_cancel_l in H. apply append_cancel_r in H. exact H.
  - intros ->. reflexivity.
Qed.

(** The dash that joins the segments is also a legal byte inside them,
    so the route does not determine the triple: moving a dash-separated
    piece [x] (free of dots) from the end of the group to the front of
    the version leaves the route unchanged. *)
Theorem generateValidatePath_separator_ambiguity (g x v k : string) :
  allBytes notDot x = true ->
  generateValidatePath (schema.mkGVK (g ++ "-" ++ x) v k)
  = generateValidatePath (schema.mkGVK g (x ++ "-" ++ v) k).
Proof.
  intros Hx. unfold generateValidatePath.
  cbn [schema.Group schema.Version schema.Kind].
  rewrite !ReplaceAll_dots, !mapBytes_append.
  assert (E : mapBytes dotToDash x = x).
  { induction x as [| c x IH]; [reflexivity |].
    simpl in Hx. apply andb_prop in Hx. destruct Hx as [Hc Hx].
    simpl. rewrite (IH Hx). unfold dotToDash.
    unfold notDot in Hc. apply negb_true_iff in Hc. rewrite Hc. reflexivity. }
  rewrite E. simpl. rewrite !append_assoc. simpl. reflexivity.
Qed.

(** Group [example-io] with version [v1] against group [example] with
    version [io-v1]. *)
Lemma generateValidatePath_separator_ambiguity_witness :
  generateValidatePath (schema.mkGVK ("example" ++ "-" ++ "io") "v1" "Widget")
  = generateValidatePath (schema.mkGVK "example" ("io" ++ "-" ++ "v1") "Widget").
Proof.
  apply (generateValidatePath_separator_ambiguity "example" "io" "v1" "Widget").
  reflexivity.
Defined.
